(** * Yahoo Finance tool server: a shallow embedding of [server.py]

    The server registers five tool handlers.  Each one builds a provider
    ticker, reads one provider attribute, reshapes it, serialises it and
    returns a [str]; the whole body sits in [try ... except Exception as e],
    whose handler returns [f"Error: {str(e)}"].

    The embedding follows that shape.  Python values are an inductive type,
    raising code lives in an error monad, the provider ([yfinance]) and the
    table library ([pandas]) are represented by the operations the handlers
    call on them, and a handler is the guarded run of its [try] body. *)

From Stdlib Require Import String Ascii List ZArith QArith Bool Arith Lia.
Import ListNotations.
Local Close Scope Q_scope.
Local Open Scope string_scope.
Local Open Scope list_scope.
Set Warnings "-register-all".

(** ** Exceptions and the error monad *)

(** An instance of Python's [Exception]: its class and the text [str(e)]
    gives for it.  The handlers name [Exception] in their [except] clause,
    and that is the class of everything raised in this development. *)
Record Exception : Type := mkException {
  exc_class : string;
  exc_str : string
}.

Definition KeyError (key : string) : Exception :=
  mkException "KeyError" ("'" ++ key ++ "'").
Definition TypeError (msg : string) : Exception := mkException "TypeError" msg.
Definition AttributeError (msg : string) : Exception :=
  mkException "AttributeError" msg.
Definition ValueError (msg : string) : Exception := mkException "ValueError" msg.

Inductive result (A : Type) : Type :=
| Ok (a : A)
| Raise (e : Exception).
Arguments Ok {A} a.
Arguments Raise {A} e.

Definition bind {A B : Type} (m : result A) (k : A -> result B) : result B :=
  match m with
  | Ok a => k a
  | Raise e => Raise e
  end.

Declare Scope py_scope.
Delimit Scope py_scope with py.
Notation "x <- m ;; k" := (bind m (fun x => k))
  (at level 61, m at next level, right associativity) : py_scope.
Local Open Scope py_scope.

(** [for x in xs: out.append(f(x))], stopping at the first raise. *)
Fixpoint for_each {A B : Type} (f : A -> result B) (xs : list A)
  : result (list B) :=
  match xs with
  | [] => Ok []
  | x :: rest =>
      y <- f x ;;
      ys <- for_each f rest ;;
      Ok (y :: ys)
  end.

(** ** Python values *)

(** The values the provider hands over in its mappings and lists: what a
    decoded JSON document holds.  A [dict] keeps its entries in insertion
    order; floats are the finite ones. *)
Inductive pyval : Type :=
| PNone
| PBool (b : bool)
| PInt (z : Z)
| PFloat (q : Q)
| PStr (s : string)
| PList (items : list pyval)
| PDict (entries : list (string * pyval)).

Definition dict : Type := list (string * pyval).

Definition type_name (v : pyval) : string :=
  match v with
  | PNone => "NoneType"
  | PBool _ => "bool"
  | PInt _ => "int"
  | PFloat _ => "float"
  | PStr _ => "str"
  | PList _ => "list"
  | PDict _ => "dict"
  end.

(** Truth value testing, as [or] and [not] apply it. *)
Definition truthy (v : pyval) : bool :=
  match v with
  | PNone => false
  | PBool b => b
  | PInt z => negb (Z.eqb z 0)
  | PFloat q => negb (Z.eqb (Qnum q) 0)
  | PStr s => negb (String.eqb s "")
  | PList items => match items with [] => false | _ => true end
  | PDict entries => match entries with [] => false | _ => true end
  end.

(** [a or b] *)
Definition py_or (a b : pyval) : pyval := if truthy a then a else b.

Fixpoint lookup (key : string) (d : dict) : option pyval :=
  match d with
  | [] => None
  | (k, v) :: rest => if String.eqb key k then Some v else lookup key rest
  end.

(** [d.get(key)] and [d.get(key, default)] on a [dict]. *)
Definition dict_get_default (d : dict) (key : string) (default : pyval) : pyval :=
  match lookup key d with
  | Some v => v
  | None => default
  end.

Definition dict_get (d : dict) (key : string) : pyval :=
  dict_get_default d key PNone.

(** [v.get(key, default)] on an arbitrary value: only a [dict] has the
    method, anything else raises [AttributeError]. *)
Definition py_get (v : pyval) (key : string) (default : pyval) : result pyval :=
  match v with
  | PDict d => Ok (dict_get_default d key default)
  | _ => Raise (AttributeError
                  ("'" ++ type_name v ++ "' object has no attribute 'get'"))
  end.

Fixpoint str_take (n : nat) (s : string) : string :=
  match n, s with
  | S n', String c rest => String c (str_take n' rest)
  | _, _ => EmptyString
  end.

(** [v[:n]]: a prefix of a [str] or of a [list]; a [dict] rejects the slice
    as a key ([TypeError] up to CPython 3.11) and the remaining types are
    not subscriptable. *)
Definition slice_to (n : nat) (v : pyval) : result pyval :=
  match v with
  | PStr s => Ok (PStr (str_take n s))
  | PList items => Ok (PList (firstn n items))
  | PDict _ => Raise (TypeError "unhashable type: 'slice'")
  | _ => Raise (TypeError ("'" ++ type_name v ++ "' object is not subscriptable"))
  end.

(** [str.upper] on ASCII text, which is what ticker symbols are made of:
    the letters [a]-[z] move to [A]-[Z], every other character stays. *)
Definition upper_char (c : ascii) : ascii :=
  let n := nat_of_ascii c in
  if (97 <=? n)%nat && (n <=? 122)%nat then ascii_of_nat (n - 32) else c.

Fixpoint upper (s : string) : string :=
  match s with
  | EmptyString => EmptyString
  | String c rest => String (upper_char c) (upper rest)
  end.

(** ** Tables

    A [pandas.DataFrame] as the handlers use it: an optional index label,
    the column labels, and the rows, each an index value with one cell per
    column.  Only the operations the handlers call are given. *)

Inductive cell : Type :=
| CNaN                      (* a missing value *)
| CInt (z : Z)
| CFloat (q : Q)
| CStr (s : string)
| CTime (ns : Z).           (* a timestamp, nanoseconds since the epoch *)

(** The last [n] elements of a list, in their order. *)
Definition lastn {A : Type} (n : nat) (l : list A) : list A :=
  skipn (length l - n) l.

Module pd.

Record DataFrame : Type := mkDataFrame {
  index_name : option string;
  columns : list cell;
  rows : list (cell * list cell)
}.

(** A column taken out of a frame, one value per row. *)
Definition Series : Type := list cell.

(** [df.empty]: one of the two axes has length zero. *)
Definition empty (df : DataFrame) : bool :=
  match columns df, rows df with
  | [], _ => true
  | _, [] => true
  | _, _ => false
  end.

Definition is_label (name : string) (c : cell) : bool :=
  match c with
  | CStr s => String.eqb name s
  | _ => false
  end.

(** [name in df.columns] *)
Definition has_column (df : DataFrame) (name : string) : bool :=
  existsb (is_label name) (columns df).

Fixpoint position (name : string) (labels : list cell) : option nat :=
  match labels with
  | [] => None
  | c :: rest =>
      if is_label name c then Some 0%nat
      else match position name rest with
           | Some k => Some (S k)
           | None => None
           end
  end.

Fixpoint number_from (k : Z) (rs : list (cell * list cell))
  : list (cell * list cell) :=
  match rs with
  | [] => []
  | (i, cells) :: rest => (CInt k, i :: cells) :: number_from (k + 1) rest
  end.

(** The label [reset_index] gives the column that receives the old index. *)
Definition index_label (df : DataFrame) : string :=
  match index_name df with
  | Some name => name
  | None => if has_column df "index" then "level_0" else "index"
  end.

(** [df.reset_index()]: the index becomes the first column, under its label,
    and the rows are numbered from zero.  pandas refuses to insert a label
    that is already a column. *)
Definition reset_index (df : DataFrame) : result DataFrame :=
  let name := index_label df in
  if has_column df name
  then Raise (ValueError ("cannot insert " ++ name ++ ", already exists"))
  else Ok (mkDataFrame None (CStr name :: columns df) (number_from 0 (rows df))).

(** [df[name]]: [KeyError] when no column carries the label. *)
Definition getitem (df : DataFrame) (name : string) : result Series :=
  match position name (columns df) with
  | Some k => Ok (map (fun r => nth k (snd r) CNaN) (rows df))
  | None => Raise (KeyError name)
  end.

Fixpoint replace_nth (k : nat) (v : cell) (cells : list cell) : list cell :=
  match k, cells with
  | _, [] => []
  | O, _ :: rest => v :: rest
  | S k', c :: rest => c :: replace_nth k' v rest
  end.

Fixpoint assign (put : cell -> list cell -> list cell)
  (rs : list (cell * list cell)) (values : Series) : list (cell * list cell) :=
  match rs, values with
  | (i, cells) :: rest, v :: values' => (i, put v cells) :: assign put rest values'
  | _, _ => rs
  end.

(** [df[name] = values], the values taken row by row: an existing column is
    overwritten in place, a new label is appended as the last column. *)
Definition setitem (df : DataFrame) (name : string) (values : Series) : DataFrame :=
  match position name (columns df) with
  | Some k =>
      mkDataFrame (index_name df) (columns df)
        (assign (replace_nth k) (rows df) values)
  | None =>
      mkDataFrame (index_name df) (columns df ++ [CStr name])
        (assign (fun v cells => cells ++ [v]) (rows df) values)
  end.

(** [df[name] = scalar] gives every row the same value. *)
Definition broadcast (df : DataFrame) (v : cell) : Series :=
  repeat v (length (rows df)).

(** [str(c)] for a cell: a string is its own text; numbers and timestamps
    are written by [render], Python's conversion for them. *)
Definition py_str (render : cell -> string) (c : cell) : string :=
  match c with
  | CStr s => s
  | _ => render c
  end.

(** [values.astype(str)] *)
Definition astype_str (render : cell -> string) (values : list cell) : list cell :=
  map (fun c => CStr (py_str render c)) values.

(** [df.tail(n)] and [df.head(n)] *)
Definition tail (n : nat) (df : DataFrame) : DataFrame :=
  mkDataFrame (index_name df) (columns df) (lastn n (rows df)).

Definition head (n : nat) (df : DataFrame) : DataFrame :=
  mkDataFrame (index_name df) (columns df) (firstn n (rows df)).

(** [df.columns = labels] *)
Definition set_columns (df : DataFrame) (labels : list cell) : DataFrame :=
  mkDataFrame (index_name df) labels (rows df).

(** The document of [to_json(orient="records")]: one object per row, column
    label to cell, the index left out. *)
Definition records (df : DataFrame) : list (list (cell * cell)) :=
  map (fun r => combine (columns df) (snd r)) (rows df).

(** The document of [to_json(orient="index")]: index value to row object. *)
Definition by_index (df : DataFrame) : list (cell * list (cell * cell)) :=
  map (fun r => (fst r, combine (columns df) (snd r))) (rows df).

End pd.

(** ** The provider

    What [yf.Ticker(symbol)] offers to the handlers.  Attributes are
    properties that fetch when read, so each read may raise. *)
Module yf.

Record Ticker : Type := mkTicker {
  info : result dict;
  history : string -> string -> result pd.DataFrame;
  news : result (option (list pyval));
  financials : result pd.DataFrame;
  balance_sheet : result pd.DataFrame;
  cashflow : result pd.DataFrame;
  recommendations : result (option pd.DataFrame)
}.

End yf.

(** ** Handler results

    A handler returns a [str].  It is kept as the document it is the text
    of: a plain message, the value given to [json.dumps], or the rows given
    to [to_json]. *)
Inductive reply : Type :=
| Plain (s : string)
| JsonDumps (v : pyval)
| ToJsonRecords (objects : list (list (cell * cell)))
| ToJsonIndex (objects : list (cell * list (cell * cell))).

(** [try: return body  except Exception as e: return f"Error: {str(e)}"] *)
Definition guarded (body : result reply) : reply :=
  match body with
  | Ok r => r
  | Raise e => Plain ("Error: " ++ exc_str e)
  end.

Definition invalid_statement_type : string :=
  "Invalid statement_type. Use: income, balance, or cashflow".

(** ** The five handlers *)
Section Handlers.

(** [yf.Ticker], and Python's [str] on numbers and timestamps. *)
Variable yf_Ticker : string -> result yf.Ticker.
Variable render : cell -> string.

(** The mapping [get_stock_info] serialises, summary apart. *)
Definition stock_fields (symbol : string) (info : dict) (summary : pyval) : dict :=
  [ ("symbol", PStr (upper symbol));
    ("name", dict_get info "longName");
    ("price", py_or (dict_get info "currentPrice")
                    (dict_get info "regularMarketPrice"));
    ("currency", dict_get info "currency");
    ("marketCap", dict_get info "marketCap");
    ("peRatio", dict_get info "trailingPE");
    ("52WeekHigh", dict_get info "fiftyTwoWeekHigh");
    ("52WeekLow", dict_get info "fiftyTwoWeekLow");
    ("volume", dict_get info "volume");
    ("avgVolume", dict_get info "averageVolume");
    ("dividendYield", dict_get info "dividendYield");
    ("sector", dict_get info "sector");
    ("industry", dict_get info "industry");
    ("summary", summary) ].

Definition get_stock_info_body (symbol : string) : result reply :=
  ticker <- yf_Ticker symbol ;;
  info <- yf.info ticker ;;
  summary <- slice_to 500 (dict_get_default info "longBusinessSummary" (PStr "")) ;;
  Ok (JsonDumps (PDict (stock_fields symbol info summary))).

Definition get_stock_info (symbol : string) : reply :=
  guarded (get_stock_info_body symbol).

Definition get_historical_prices_body (symbol period interval : string)
  : result reply :=
  ticker <- yf_Ticker symbol ;;
  hist <- yf.history ticker period interval ;;
  if pd.empty hist then Ok (Plain ("No data found for " ++ symbol))
  else
    hist <- pd.reset_index hist ;;
    dates <- pd.getitem hist "Date" ;;
    let hist := pd.setitem hist "Date" (pd.astype_str render dates) in
    Ok (ToJsonRecords (pd.records (pd.tail 20 hist))).

Definition get_historical_prices (symbol period interval : string) : reply :=
  guarded (get_historical_prices_body symbol period interval).

(** One entry of [articles]. *)
Definition article (item : pyval) : result pyval :=
  content <- py_get item "content" (PDict []) ;;
  flat_title <- py_get item "title" (PStr "No title") ;;
  title <- py_get content "title" flat_title ;;
  content <- py_get item "content" (PDict []) ;;
  provider <- py_get content "provider" (PDict []) ;;
  publisher <- py_get provider "displayName" (PStr "Unknown") ;;
  content <- py_get item "content" (PDict []) ;;
  canonicalUrl <- py_get content "canonicalUrl" (PDict []) ;;
  link <- py_get canonicalUrl "url" (PStr "") ;;
  Ok (PDict [("title", title); ("publisher", publisher); ("link", link)]).

Definition get_stock_news_body (symbol : string) : result reply :=
  ticker <- yf_Ticker symbol ;;
  news <- yf.news ticker ;;
  match news with
  | None | Some [] => Ok (Plain ("No news found for " ++ symbol))
  | Some news =>
      articles <- for_each article (firstn 5 news) ;;
      Ok (JsonDumps (PList articles))
  end.

Definition get_stock_news (symbol : string) : reply :=
  guarded (get_stock_news_body symbol).

Definition get_financial_statement_body (symbol statement_type : string)
  : result reply :=
  ticker <- yf_Ticker symbol ;;
  let finish (data : pd.DataFrame) : result reply :=
    if pd.empty data
    then Ok (Plain ("No " ++ statement_type ++ " data for " ++ symbol))
    else
      let data := pd.set_columns data (pd.astype_str render (pd.columns data)) in
      Ok (ToJsonIndex (pd.by_index (pd.head 10 data))) in
  if String.eqb statement_type "income" then
    data <- yf.financials ticker ;; finish data
  else if String.eqb statement_type "balance" then
    data <- yf.balance_sheet ticker ;; finish data
  else if String.eqb statement_type "cashflow" then
    data <- yf.cashflow ticker ;; finish data
  else Ok (Plain invalid_statement_type).

Definition get_financial_statement (symbol statement_type : string) : reply :=
  guarded (get_financial_statement_body symbol statement_type).

Definition get_recommendations_body (symbol : string) : result reply :=
  ticker <- yf_Ticker symbol ;;
  recs <- yf.recommendations ticker ;;
  match recs with
  | None => Ok (Plain ("No recommendations for " ++ symbol))
  | Some recs =>
      if pd.empty recs then Ok (Plain ("No recommendations for " ++ symbol))
      else
        recs <- pd.reset_index recs ;;
        dates <- (if pd.has_column recs "Date"
                  then dates <- pd.getitem recs "Date" ;;
                       Ok (pd.astype_str render dates)
                  else Ok (pd.broadcast recs (CStr ""))) ;;
        let recs := pd.setitem recs "Date" dates in
        Ok (ToJsonRecords (pd.records (pd.tail 10 recs)))
  end.

Definition get_recommendations (symbol : string) : reply :=
  guarded (get_recommendations_body symbol).

End Handlers.

(** ** Tool calls

    The server's registry maps a tool name and its arguments to a handler;
    a call is one entry of it together with its arguments. *)
Inductive call : Type :=
| StockInfo (symbol : string)
| HistoricalPrices (symbol period interval : string)
| StockNews (symbol : string)
| FinancialStatement (symbol statement_type : string)
| Recommendations (symbol : string).

Definition symbol_of (c : call) : string :=
  match c with
  | StockInfo symbol
  | HistoricalPrices symbol _ _
  | StockNews symbol
  | FinancialStatement symbol _
  | Recommendations symbol => symbol
  end.

Section Dispatch.

Variable yf_Ticker : string -> result yf.Ticker.
Variable render : cell -> string.

(** The [try] block a call runs. *)
Definition body_of (c : call) : result reply :=
  match c with
  | StockInfo symbol => get_stock_info_body yf_Ticker symbol
  | HistoricalPrices symbol period interval =>
      get_historical_prices_body yf_Ticker render symbol period interval
  | StockNews symbol => get_stock_news_body yf_Ticker symbol
  | FinancialStatement symbol statement_type =>
      get_financial_statement_body yf_Ticker render symbol statement_type
  | Recommendations symbol => get_recommendations_body yf_Ticker render symbol
  end.



(** What the caller of the tool receives. *)
Definition handle (c : call) : reply :=
  match c with
  | StockInfo symbol => get_stock_info yf_Ticker symbol
  | HistoricalPrices symbol period interval =>
      get_historical_prices yf_Ticker render symbol period interval
  | StockNews symbol => get_stock_news yf_Ticker symbol
  | FinancialStatement symbol statement_type =>
      get_financial_statement yf_Ticker render symbol statement_type
  | Recommendations symbol => get_recommendations yf_Ticker render symbol
  end.

End Dispatch.

(** ** Reading replies *)


(** [s.startswith(p)] *)
Fixpoint starts_with (p s : string) : bool :=
  match p, s with
  | EmptyString, _ => true
  | String a p', String b s' => Ascii.eqb a b && starts_with p' s'
  | String _ _, EmptyString => false
  end.

Definition is_error (r : reply) : bool :=
  match r with
  | Plain s => starts_with "Error: " s
  | _ => false
  end.




(** The value [get_stock_info] slices for the summary:
    [info.get("longBusinessSummary", "")]. *)
Definition summary_source (info : dict) : pyval :=
  dict_get_default info "longBusinessSummary" (PStr "").

Definition stock_field_names : list string :=
  [ "symbol"; "name"; "price"; "currency"; "marketCap"; "peRatio";
    "52WeekHigh"; "52WeekLow"; "volume"; "avgVolume"; "dividendYield";
    "sector"; "industry"; "summary" ].

(** *** Rows, read one at a time

    What the column-wise steps of [get_historical_prices] and
    [get_recommendations] come to for a single row. *)

(** The column labels after [reset_index]. *)
Definition reset_labels (df : pd.DataFrame) : list cell :=
  CStr (pd.index_label df) :: pd.columns df.

(** A row after [reset_index]: the index value, then the cells. *)
Definition reset_cells (r : cell * list cell) : list cell := fst r :: snd r.

(** The object written for a row with the given labels and cells once its
    [Date] cell is text: converted in place under the first [Date] label,
    or added as an empty string at the end. *)
Definition dated_object (render : cell -> string) (labels cells : list cell)
  : list (cell * cell) :=
  match pd.position "Date" labels with
  | Some k =>
      combine labels
        (pd.replace_nth k (CStr (pd.py_str render (nth k cells CNaN))) cells)
  | None => combine (labels ++ [CStr "Date"]) (cells ++ [CStr ""])
  end.

(** *** News items, read without the method calls

    The same extraction as [article], written as lookups along key paths;
    it is what [article] computes on items whose nested entries are
    mappings. *)

(** The value reached by following [keys] through nested mappings. *)
Fixpoint path (keys : list string) (v : pyval) : option pyval :=
  match keys with
  | [] => Some v
  | key :: rest =>
      match v with
      | PDict d =>
          match lookup key d with
          | Some v' => path rest v'
          | None => None
          end
      | _ => None
      end
  end.

Definition or_else (found : option pyval) (placeholder : pyval) : pyval :=
  match found with
  | Some v => v
  | None => placeholder
  end.

Definition news_title (item : pyval) : pyval :=
  or_else (path ["content"; "title"] item)
    (or_else (path ["title"] item) (PStr "No title")).

Definition news_publisher (item : pyval) : pyval :=
  or_else (path ["content"; "provider"; "displayName"] item) (PStr "Unknown").

Definition news_link (item : pyval) : pyval :=
  or_else (path ["content"; "canonicalUrl"; "url"] item) (PStr "").

Definition digest (item : pyval) : pyval :=
  PDict [ ("title", news_title item);
          ("publisher", news_publisher item);
          ("link", news_link item) ].

Definition mapping_or_absent (found : option pyval) : bool :=
  match found with
  | None | Some (PDict _) => true
  | Some _ => false
  end.

(** An item is a mapping, and so are its [content] and, inside it,
    [provider] and [canonicalUrl], where they are present. *)
Definition well_shaped (item : pyval) : bool :=
  match item with
  | PDict _ =>
      mapping_or_absent (path ["content"] item)
      && mapping_or_absent (path ["content"; "provider"] item)
      && mapping_or_absent (path ["content"; "canonicalUrl"] item)
  | _ => false
  end.




(** *** Further readings of the handlers' inputs *)

Definition is_mapping (v : pyval) : bool :=
  match v with
  | PDict _ => true
  | _ => false
  end.

(** The values [v[:500]] accepts. *)
Definition sliceable (v : pyval) : bool :=
  match v with
  | PStr _ | PList _ => true
  | _ => false
  end.

(** The provider table [get_financial_statement] reads for a statement
    type, none for a type it does not know. *)
Definition statement_table (ticker : yf.Ticker) (statement_type : string)
  : option (result pd.DataFrame) :=
  if String.eqb statement_type "income" then Some (yf.financials ticker)
  else if String.eqb statement_type "balance" then Some (yf.balance_sheet ticker)
  else if String.eqb statement_type "cashflow" then Some (yf.cashflow ticker)
  else None.

(** What [article] makes of an item in the flat shape, one without a
    [content] entry. *)
Definition flat_digest (d : dict) : pyval :=
  PDict [ ("title", dict_get_default d "title" (PStr "No title"));
          ("publisher", PStr "Unknown");
          ("link", PStr "") ].


(** ** Sample provider data *)
Module Sample.

Definition offline : Exception :=
  mkException "ConnectionError" "Failed to resolve 'query2.finance.yahoo.com'".

Definition no_frame : pd.DataFrame := pd.mkDataFrame None [] [].

(** A ticker for which the provider has nothing. *)
Definition bare : yf.Ticker :=
  yf.mkTicker (Ok []) (fun _ _ => Ok no_frame) (Ok None)
    (Ok no_frame) (Ok no_frame) (Ok no_frame) (Ok None).

Definition with_info (d : dict) : yf.Ticker :=
  yf.mkTicker (Ok d) (fun _ _ => Ok no_frame) (Ok None)
    (Ok no_frame) (Ok no_frame) (Ok no_frame) (Ok None).

Definition with_history (df : pd.DataFrame) : yf.Ticker :=
  yf.mkTicker (Ok []) (fun _ _ => Ok df) (Ok None)
    (Ok no_frame) (Ok no_frame) (Ok no_frame) (Ok None).

Definition with_news (items : list pyval) : yf.Ticker :=
  yf.mkTicker (Ok []) (fun _ _ => Ok no_frame) (Ok (Some items))
    (Ok no_frame) (Ok no_frame) (Ok no_frame) (Ok None).


(** A provider that answers every symbol with the same ticker. *)
Definition serving (t : yf.Ticker) : string -> result yf.Ticker :=
  fun _ => Ok t.

(** A provider whose constructor resolves ISIN codes and rejects the ones it
    cannot resolve. *)
Definition rejecting_isin : string -> result yf.Ticker :=
  fun symbol => Raise (ValueError ("Invalid ISIN number: " ++ symbol)).


(** Text of the timestamps of the sample tables. *)
Definition render (c : cell) : string :=
  match c with
  | CTime 1704171600000000000 => "2024-01-02 00:00:00-05:00"
  | CTime 1704258000000000000 => "2024-01-03 00:00:00-05:00"
  | CTime 1704205800000000000 => "2024-01-02 09:30:00-05:00"
  | _ => "nan"
  end.

Definition ohlcv : list cell :=
  [CStr "Open"; CStr "High"; CStr "Low"; CStr "Close"; CStr "Volume"].


(** One one-minute bar, the index labelled [Datetime]. *)
Definition intraday : pd.DataFrame :=
  pd.mkDataFrame (Some "Datetime") ohlcv
    [ (CTime 1704205800000000000,
       [CFloat (1871 # 10)%Q; CFloat (1872 # 10)%Q; CFloat (1870 # 10)%Q;
        CFloat (1871 # 10)%Q; CInt 1204500]) ].


Definition apple : dict :=
  [ ("longName", PStr "Apple Inc.");
    ("currentPrice", PInt 0);
    ("regularMarketPrice", PFloat (1895 # 10)%Q);
    ("currency", PStr "USD");
    ("longBusinessSummary", PStr "Apple Inc. designs smartphones.") ].

Definition apple_without_summary : dict :=
  [ ("longName", PStr "Apple Inc.");
    ("longBusinessSummary", PNone) ].

Definition modern_item : pyval :=
  PDict [ ("id", PStr "a1");
          ("content",
           PDict [ ("title", PStr "Apple unveils new chip");
                   ("provider", PDict [("displayName", PStr "Reuters")]);
                   ("canonicalUrl",
                    PDict [("url", PStr "https://example.com/a1")]) ]) ].


Definition with_statements (income balance cash : pd.DataFrame) : yf.Ticker :=
  yf.mkTicker (Ok []) (fun _ _ => Ok no_frame) (Ok None)
    (Ok income) (Ok balance) (Ok cash) (Ok None).

(** Two line items of an income statement over two fiscal years. *)
Definition income : pd.DataFrame :=
  pd.mkDataFrame None [CStr "2023-09-30"; CStr "2022-09-30"]
    [ (CStr "Total Revenue", [CInt 383285000000; CInt 394328000000]);
      (CStr "Net Income", [CInt 96995000000; CInt 99803000000]) ].

(** An item in the flat shape of older provider versions. *)
Definition flat_entries : dict :=
  [ ("uuid", PStr "b1"); ("title", PStr "Apple hits record high");
    ("publisher", PStr "Bloomberg"); ("link", PStr "https://example.com/b1") ].

Definition null_content_entries : dict :=
  [ ("id", PStr "a3"); ("content", PNone) ].

Definition apple_priced : dict :=
  [ ("longName", PStr "Apple Inc.");
    ("currentPrice", PFloat (1895 # 10)%Q);
    ("regularMarketPrice", PFloat (1890 # 10)%Q) ].

Definition apple_numbered_summary : dict :=
  [ ("longName", PStr "Apple Inc."); ("longBusinessSummary", PInt 7) ].

End Sample.

(** * Properties *)

(** ** The error monad and the guard *)

Lemma bind_ok {A B : Type} (m : result A) (k : A -> result B) (a : A) :
  m = Ok a -> bind m k = k a.
Proof. intros ->. reflexivity. Qed.

Lemma bind_raise {A B : Type} (m : result A) (k : A -> result B) (e : Exception) :
  m = Raise e -> bind m k = Raise e.
Proof. intros ->. reflexivity. Qed.

Lemma bind_inv_ok {A B : Type} (m : result A) (k : A -> result B) (b : B) :
  bind m k = Ok b -> exists a, m = Ok a /\ k a = Ok b.
Proof.
  destruct m as [a | e]; simpl; intros H.
  - exists a. split; [reflexivity | exact H].
  - discriminate H.
Qed.

Lemma guarded_ok (body : result reply) (r : reply) :
  body = Ok r -> guarded body = r.
Proof. intros ->. reflexivity. Qed.



(** A call returns what its [try] block returns, or the error text of what
    the block raised: nothing else leaves a handler. *)
Lemma handle_cases (yf_Ticker : string -> result yf.Ticker)
  (render : cell -> string) (c : call) :
  (exists r, body_of yf_Ticker render c = Ok r /\ handle yf_Ticker render c = r)
  \/ (exists e, body_of yf_Ticker render c = Raise e
        /\ handle yf_Ticker render c = Plain ("Error: " ++ exc_str e)).
Proof.
  assert (G : handle yf_Ticker render c = guarded (body_of yf_Ticker render c))
    by (destruct c; reflexivity).
  rewrite G.
  destruct (body_of yf_Ticker render c) as [r | e].
  - left. exists r. split; reflexivity.
  - right. exists e. split; reflexivity.
Qed.



(** ** C1: exceptions become error text *)



(** ** C2: the statement type is checked after the ticker is built *)

(** C2, as stated, fails: the handler builds the ticker before it looks at
    [statement_type], so a symbol the provider's constructor rejects takes
    the exception path whatever the statement type is. *)
Lemma invalid_statement_type_counterexample :
  "quarterly" <> "income" /\ "quarterly" <> "balance" /\ "quarterly" <> "cashflow"
  /\ get_financial_statement Sample.rejecting_isin Sample.render
       "US0000000000" "quarterly"
     = Plain "Error: Invalid ISIN number: US0000000000"
  /\ get_financial_statement Sample.rejecting_isin Sample.render
       "US0000000000" "quarterly"
     <> Plain invalid_statement_type.
Proof.
  repeat split; try discriminate; reflexivity.
Qed.

(** C2, amended.  For every symbol whose ticker the provider builds without
    raising and every [statement_type] other than [income], [balance] and
    [cashflow], [get_financial_statement] returns exactly the usage string,
    whatever the symbol and whatever the ticker holds, as a normal return of
    the [try] block. *)
Theorem invalid_statement_type_usage
  (yf_Ticker : string -> result yf.Ticker) (render : cell -> string)
  (symbol statement_type : string) (ticker : yf.Ticker) :
  yf_Ticker symbol = Ok ticker ->
  statement_type <> "income" ->
  statement_type <> "balance" ->
  statement_type <> "cashflow" ->
  get_financial_statement_body yf_Ticker render symbol statement_type
    = Ok (Plain invalid_statement_type)
  /\ get_financial_statement yf_Ticker render symbol statement_type
    = Plain "Invalid statement_type. Use: income, balance, or cashflow".
Proof.
  intros T Hi Hb Hc.
  assert (B : get_financial_statement_body yf_Ticker render symbol statement_type
              = Ok (Plain invalid_statement_type)).
  { unfold get_financial_statement_body. rewrite T. simpl.
    apply String.eqb_neq in Hi, Hb, Hc. rewrite Hi, Hb, Hc. reflexivity. }
  split; [exact B | ].
  unfold get_financial_statement. rewrite B. reflexivity.
Qed.

Lemma invalid_statement_type_usage_witness :
  get_financial_statement_body (Sample.serving Sample.bare) Sample.render
    "AAPL" "quarterly" = Ok (Plain invalid_statement_type)
  /\ get_financial_statement (Sample.serving Sample.bare) Sample.render
    "AAPL" "quarterly"
    = Plain "Invalid statement_type. Use: income, balance, or cashflow".
Proof.
  apply (invalid_statement_type_usage (Sample.serving Sample.bare) Sample.render
           "AAPL" "quarterly" Sample.bare).
  - reflexivity.
  - discriminate.
  - discriminate.
  - discriminate.
Defined.

(** ** C8: an empty history is reported, not raised *)

Lemma not_found_is_no_error (symbol : string) :
  is_error (Plain ("No data found for " ++ symbol)) = false.
Proof. reflexivity. Qed.

(** C8.  Whenever the provider builds the ticker and its history for the
    period and interval is an empty table, [get_historical_prices] returns
    the string ["No data found for " ++ symbol]; the [try] block returns it
    normally, and it is not an ["Error: ..."] string. *)
Theorem empty_history_not_found
  (yf_Ticker : string -> result yf.Ticker) (render : cell -> string)
  (symbol period interval : string) (ticker : yf.Ticker) (hist : pd.DataFrame) :
  yf_Ticker symbol = Ok ticker ->
  yf.history ticker period interval = Ok hist ->
  pd.empty hist = true ->
  get_historical_prices yf_Ticker render symbol period interval
    = Plain ("No data found for " ++ symbol)
  /\ get_historical_prices_body yf_Ticker render symbol period interval
    = Ok (Plain ("No data found for " ++ symbol))
  /\ is_error (get_historical_prices yf_Ticker render symbol period interval)
    = false.
Proof.
  intros T H E.
  assert (B : get_historical_prices_body yf_Ticker render symbol period interval
              = Ok (Plain ("No data found for " ++ symbol))).
  { unfold get_historical_prices_body. rewrite T. simpl. rewrite H. simpl.
    rewrite E. reflexivity. }
  unfold get_historical_prices. rewrite B. simpl.
  repeat split; reflexivity.
Qed.

Lemma empty_history_not_found_witness :
  get_historical_prices (Sample.serving Sample.bare) Sample.render
    "ZZZZ" "1mo" "1d" = Plain "No data found for ZZZZ"
  /\ get_historical_prices_body (Sample.serving Sample.bare) Sample.render
    "ZZZZ" "1mo" "1d" = Ok (Plain "No data found for ZZZZ")
  /\ is_error (get_historical_prices (Sample.serving Sample.bare) Sample.render
                 "ZZZZ" "1mo" "1d") = false.
Proof.
  apply (empty_history_not_found (Sample.serving Sample.bare) Sample.render
           "ZZZZ" "1mo" "1d" Sample.bare Sample.no_frame);
    reflexivity.
Defined.

(** ** The quote summary: C5, C6, C7 and C10 *)

Section StockInfo.

Variable yf_Ticker : string -> result yf.Ticker.

Lemma stock_info_returns (symbol : string) (ticker : yf.Ticker) (info : dict)
  (summary : pyval) :
  yf_Ticker symbol = Ok ticker ->
  yf.info ticker = Ok info ->
  slice_to 500 (summary_source info) = Ok summary ->
  get_stock_info yf_Ticker symbol
    = JsonDumps (PDict (stock_fields symbol info summary)).
Proof.
  intros T I S. unfold get_stock_info, get_stock_info_body.
  rewrite T. simpl. rewrite I. simpl.
  unfold summary_source in S. rewrite S. reflexivity.
Qed.

Lemma stock_info_raises (symbol : string) (ticker : yf.Ticker) (info : dict)
  (e : Exception) :
  yf_Ticker symbol = Ok ticker ->
  yf.info ticker = Ok info ->
  slice_to 500 (summary_source info) = Raise e ->
  get_stock_info yf_Ticker symbol = Plain ("Error: " ++ exc_str e).
Proof.
  intros T I S. unfold get_stock_info, get_stock_info_body.
  rewrite T. simpl. rewrite I. simpl.
  unfold summary_source in S. rewrite S. reflexivity.
Qed.






Lemma summary_of_missing_key (symbol : string) (ticker : yf.Ticker) (info : dict) :
  yf_Ticker symbol = Ok ticker ->
  yf.info ticker = Ok info ->
  lookup "longBusinessSummary" info = None ->
  exists fields,
    get_stock_info yf_Ticker symbol = JsonDumps (PDict fields)
    /\ lookup "summary" fields = Some (PStr "").
Proof.
  intros T I L.
  exists (stock_fields symbol info (PStr "")).
  split; [ | reflexivity].
  apply (stock_info_returns symbol ticker info); try assumption.
  unfold summary_source, dict_get_default. rewrite L. reflexivity.
Qed.


(** C6.  The code at the null case: when the provider's mapping holds
    [longBusinessSummary] with the value [None], the [""] default of
    [info.get] does not apply, slicing [None] raises [TypeError], and the
    handler returns the error text; no summary, empty or otherwise, is
    produced. *)
Theorem null_summary_is_error (symbol : string) (ticker : yf.Ticker) (info : dict) :
  yf_Ticker symbol = Ok ticker ->
  yf.info ticker = Ok info ->
  lookup "longBusinessSummary" info = Some PNone ->
  get_stock_info yf_Ticker symbol
    = Plain "Error: 'NoneType' object is not subscriptable".
Proof.
  intros T I L.
  apply (stock_info_raises symbol ticker info
           (TypeError "'NoneType' object is not subscriptable")); try assumption.
  unfold summary_source, dict_get_default. rewrite L. reflexivity.
Qed.


(** C10.  Whenever the provider's [currentPrice] is falsy, the [price] of
    the reply is the provider's [regularMarketPrice] ([null] if that is
    missing too); a missing key, [None], [0] and [0.0] are all falsy. *)
Theorem price_falls_back_when_falsy (symbol : string) (ticker : yf.Ticker)
  (info : dict) (summary : pyval) :
  yf_Ticker symbol = Ok ticker ->
  yf.info ticker = Ok info ->
  slice_to 500 (summary_source info) = Ok summary ->
  (truthy (dict_get info "currentPrice") = false
   \/ lookup "currentPrice" info = None
   \/ lookup "currentPrice" info = Some PNone
   \/ lookup "currentPrice" info = Some (PInt 0)
   \/ lookup "currentPrice" info = Some (PFloat 0)) ->
  exists fields,
    get_stock_info yf_Ticker symbol = JsonDumps (PDict fields)
    /\ lookup "price" fields = Some (dict_get info "regularMarketPrice").
Proof.
  intros T I S F.
  assert (Hf : truthy (dict_get info "currentPrice") = false).
  { unfold dict_get, dict_get_default.
    destruct F as [F | [F | [F | [F | F]]]];
      [ exact F | rewrite F; reflexivity .. ]. }
  exists (stock_fields symbol info summary).
  split.
  - apply (stock_info_returns symbol ticker info summary); assumption.
  - simpl. unfold py_or. rewrite Hf. reflexivity.
Qed.

(** A truthy [currentPrice] is the price. *)
Lemma price_is_current_when_truthy (symbol : string) (ticker : yf.Ticker)
  (info : dict) (summary : pyval) :
  yf_Ticker symbol = Ok ticker ->
  yf.info ticker = Ok info ->
  slice_to 500 (summary_source info) = Ok summary ->
  truthy (dict_get info "currentPrice") = true ->
  exists fields,
    get_stock_info yf_Ticker symbol = JsonDumps (PDict fields)
    /\ lookup "price" fields = Some (dict_get info "currentPrice").
Proof.
  intros T I S F.
  exists (stock_fields symbol info summary).
  split.
  - apply (stock_info_returns symbol ticker info summary); assumption.
  - simpl. unfold py_or. rewrite F. reflexivity.
Qed.

End StockInfo.

Lemma null_summary_is_error_witness :
  get_stock_info (Sample.serving (Sample.with_info Sample.apple_without_summary))
    "aapl" = Plain "Error: 'NoneType' object is not subscriptable".
Proof.
  apply (null_summary_is_error
           (Sample.serving (Sample.with_info Sample.apple_without_summary))
           "aapl" (Sample.with_info Sample.apple_without_summary)
           Sample.apple_without_summary);
    reflexivity.
Defined.

(** C5.  The code at an input where the provider's info lookup succeeds and
    the mapping holds a null summary: the reply is an error text, not a JSON
    object with a [symbol] field. *)
Theorem info_with_null_summary_gives_no_json :
  yf.info (Sample.with_info Sample.apple_without_summary)
    = Ok Sample.apple_without_summary
  /\ get_stock_info
       (Sample.serving (Sample.with_info Sample.apple_without_summary)) "aapl"
     = Plain "Error: 'NoneType' object is not subscriptable"
  /\ is_error
       (get_stock_info
          (Sample.serving (Sample.with_info Sample.apple_without_summary)) "aapl")
     = true.
Proof.
  split; [reflexivity | split; reflexivity].
Qed.



Lemma price_falls_back_when_falsy_witness :
  lookup "currentPrice" Sample.apple = Some (PInt 0)
  /\ exists fields,
       get_stock_info (Sample.serving (Sample.with_info Sample.apple)) "aapl"
         = JsonDumps (PDict fields)
       /\ lookup "price" fields = Some (PFloat (1895 # 10)%Q).
Proof.
  split; [reflexivity | ].
  apply (price_falls_back_when_falsy
           (Sample.serving (Sample.with_info Sample.apple)) "aapl"
           (Sample.with_info Sample.apple) Sample.apple
           (PStr "Apple Inc. designs smartphones.")).
  - reflexivity.
  - reflexivity.
  - reflexivity.
  - right. right. right. left. reflexivity.
Defined.

(** ** News: C4 *)

Lemma for_each_pure {A B : Type} (f : A -> result B) (g : A -> B) (xs : list A) :
  (forall x, In x xs -> f x = Ok (g x)) ->
  for_each f xs = Ok (map g xs).
Proof.
  induction xs as [ | x rest IH]; intros H; simpl.
  - reflexivity.
  - rewrite (H x (or_introl eq_refl)). simpl.
    rewrite IH; [reflexivity | ].
    intros y Hy. apply H. now right.
Qed.

Lemma for_each_raise {A B : Type} (f : A -> result B) (xs : list A) (x : A) :
  In x xs -> (exists e, f x = Raise e) -> exists e, for_each f xs = Raise e.
Proof.
  induction xs as [ | y rest IH]; intros Hin Hx; simpl.
  - contradiction.
  - destruct (f y) as [b | e] eqn:Fy; simpl.
    + destruct Hin as [-> | Hin].
      * destruct Hx as [e Hx]. rewrite Hx in Fy. discriminate.
      * destruct (IH Hin Hx) as [e E]. rewrite E. exists e. reflexivity.
    + exists e. reflexivity.
Qed.

(** Case analysis on the lookups a goal scrutinises, one at a time. *)
Ltac split_lookups :=
  repeat (simpl; unfold dict_get_default;
          match goal with
          | |- context [match lookup ?k ?m with _ => _ end] =>
              destruct (lookup k m) as [[ | | | | | | ?] | ]
          end);
  simpl.

(** On a well-shaped item the method calls of [article] never raise and
    compute the path lookups of [digest]. *)
Lemma article_well_shaped (item : pyval) :
  well_shaped item = true -> article item = Ok (digest item).
Proof.
  destruct item as [ | | | | | | d]; try discriminate.
  unfold well_shaped, article, digest, news_title, news_publisher, news_link,
    mapping_or_absent, or_else, path, py_get.
  split_lookups; intros H; try discriminate H; reflexivity.
Qed.

(** On any other item one of the [.get] calls meets a value without that
    method and raises. *)
Lemma article_ill_shaped (item : pyval) :
  well_shaped item = false -> exists e, article item = Raise e.
Proof.
  destruct item as [ | | | | | | d]; try (intros _; eexists; reflexivity).
  unfold well_shaped, article, mapping_or_absent, path, py_get.
  split_lookups; intros H; try discriminate H; eexists; reflexivity.
Qed.


Section News.

Variable yf_Ticker : string -> result yf.Ticker.

Lemma stock_news_of_list (symbol : string) (ticker : yf.Ticker)
  (news : list pyval) :
  yf_Ticker symbol = Ok ticker ->
  yf.news ticker = Ok (Some news) ->
  news <> [] ->
  get_stock_news_body yf_Ticker symbol
    = (articles <- for_each article (firstn 5 news) ;;
       Ok (JsonDumps (PList articles))).
Proof.
  intros T N E. unfold get_stock_news_body. rewrite T. simpl. rewrite N. simpl.
  destruct news as [ | item rest]; [contradiction | reflexivity].
Qed.


(** An item that is not well shaped among the first five turns the whole
    reply into an error text. *)
Lemma stock_news_ill_shaped (symbol : string) (ticker : yf.Ticker)
  (news : list pyval) (item : pyval) :
  yf_Ticker symbol = Ok ticker ->
  yf.news ticker = Ok (Some news) ->
  In item (firstn 5 news) ->
  well_shaped item = false ->
  is_error (get_stock_news yf_Ticker symbol) = true.
Proof.
  intros T N Hin W.
  assert (E : news <> []) by (intros ->; simpl in Hin; contradiction).
  unfold get_stock_news.
  rewrite (stock_news_of_list symbol ticker news T N E).
  destruct (for_each_raise article (firstn 5 news) item Hin
              (article_ill_shaped item W)) as [e F].
  rewrite F. reflexivity.
Qed.

(** Without news the handler reports so. *)
Lemma stock_news_none (symbol : string) (ticker : yf.Ticker)
  (news : option (list pyval)) :
  yf_Ticker symbol = Ok ticker ->
  yf.news ticker = Ok news ->
  news = None \/ news = Some [] ->
  get_stock_news yf_Ticker symbol = Plain ("No news found for " ++ symbol).
Proof.
  intros T N E. unfold get_stock_news, get_stock_news_body.
  rewrite T. simpl. rewrite N. simpl.
  destruct E as [-> | ->]; reflexivity.
Qed.

End News.



(** ** Tables: the column-wise steps, row by row *)


Lemma lastn_length {A : Type} (n : nat) (l : list A) :
  length (lastn n l) = Nat.min n (length l).
Proof. unfold lastn. rewrite length_skipn. lia. Qed.




Lemma number_from_cells (k : Z) (rs : list (cell * list cell)) :
  map snd (pd.number_from k rs) = map reset_cells rs.
Proof.
  revert k. induction rs as [ | [i cells] rest IH]; intros k; simpl.
  - reflexivity.
  - now rewrite IH.
Qed.

Lemma number_from_length (k : Z) (rs : list (cell * list cell)) :
  length (pd.number_from k rs) = length rs.
Proof.
  rewrite <- (length_map snd), number_from_cells. apply length_map.
Qed.




Section DateColumn.

Variable render : cell -> string.




End DateColumn.






(** Under a [Date] index the object opens with the index value as text. *)
Lemma dated_object_date_index (render : cell -> string) (columns cells : list cell)
  (i : cell) :
  dated_object render (CStr "Date" :: columns) (i :: cells)
    = (CStr "Date", CStr (pd.py_str render i)) :: combine columns cells.
Proof. reflexivity. Qed.

Lemma reset_index_ok (df : pd.DataFrame) :
  pd.has_column df (pd.index_label df) = false ->
  pd.reset_index df
    = Ok (pd.mkDataFrame None (reset_labels df) (pd.number_from 0 (pd.rows df))).
Proof. unfold pd.reset_index. intros ->. reflexivity. Qed.

Lemma reset_index_clash (df : pd.DataFrame) :
  pd.has_column df (pd.index_label df) = true ->
  pd.reset_index df
    = Raise (ValueError ("cannot insert " ++ pd.index_label df ++ ", already exists")).
Proof. unfold pd.reset_index. intros ->. reflexivity. Qed.

(** ** Historical prices: C3 *)

Section HistoricalPrices.

Variable yf_Ticker : string -> result yf.Ticker.
Variable render : cell -> string.

Lemma historical_prices_of_table (symbol period interval : string)
  (ticker : yf.Ticker) (hist : pd.DataFrame) :
  yf_Ticker symbol = Ok ticker ->
  yf.history ticker period interval = Ok hist ->
  pd.empty hist = false ->
  get_historical_prices_body yf_Ticker render symbol period interval
    = (hist <- pd.reset_index hist ;;
       dates <- pd.getitem hist "Date" ;;
       let hist := pd.setitem hist "Date" (pd.astype_str render dates) in
       Ok (ToJsonRecords (pd.records (pd.tail 20 hist)))).
Proof.
  intros T H E. unfold get_historical_prices_body.
  rewrite T. simpl. rewrite H. simpl. rewrite E. reflexivity.
Qed.

(** C3.  The code on a non-empty table that has no [Date] label once its
    index is a column - the provider labels the index of intraday bars
    [Datetime] -: [hist['Date']] raises [KeyError] and the handler returns
    the error text; no row is returned. *)
Theorem history_without_date_is_error (symbol period interval : string)
  (ticker : yf.Ticker) (hist : pd.DataFrame) :
  yf_Ticker symbol = Ok ticker ->
  yf.history ticker period interval = Ok hist ->
  pd.empty hist = false ->
  pd.has_column hist (pd.index_label hist) = false ->
  pd.position "Date" (reset_labels hist) = None ->
  get_historical_prices yf_Ticker render symbol period interval
    = Plain "Error: 'Date'".
Proof.
  intros T H E F P. unfold get_historical_prices.
  rewrite (historical_prices_of_table symbol period interval ticker hist T H E).
  rewrite (reset_index_ok hist F). cbn [bind].
  unfold pd.getitem. cbn [pd.columns]. rewrite P. reflexivity.
Qed.



End HistoricalPrices.

Lemma history_without_date_is_error_witness :
  get_historical_prices (Sample.serving (Sample.with_history Sample.intraday))
    Sample.render "AAPL" "1d" "1m" = Plain "Error: 'Date'".
Proof.
  apply (history_without_date_is_error
           (Sample.serving (Sample.with_history Sample.intraday)) Sample.render
           "AAPL" "1d" "1m" (Sample.with_history Sample.intraday) Sample.intraday);
    reflexivity.
Defined.

(** ** Recommendations: C9 *)

Section Recommendations.

Variable yf_Ticker : string -> result yf.Ticker.
Variable render : cell -> string.




End Recommendations.


(** * Further properties of the handlers *)

(** ** The quote summary *)




(** A summary the provider gives as anything but a string or a list cannot
    be sliced: the whole reply is an error text and no other field is
    returned.  For a value that is not a mapping the text names its type. *)
Theorem unsliceable_summary_is_error (yf_Ticker : string -> result yf.Ticker)
  (symbol : string) (ticker : yf.Ticker) (info : dict) (v : pyval) :
  yf_Ticker symbol = Ok ticker ->
  yf.info ticker = Ok info ->
  lookup "longBusinessSummary" info = Some v ->
  sliceable v = false ->
  is_error (get_stock_info yf_Ticker symbol) = true
  /\ (is_mapping v = false ->
      get_stock_info yf_Ticker symbol
        = Plain ("Error: '" ++ type_name v ++ "' object is not subscriptable")).
Proof.
  intros T I L S.
  assert (E : summary_source info = v)
    by (unfold summary_source, dict_get_default; rewrite L; reflexivity).
  destruct v; try discriminate S;
    match goal with
    | |- context [type_name ?w] =>
        assert (R : exists e, slice_to 500 (summary_source info) = Raise e
                              /\ (is_mapping w = false ->
                                  exc_str e = ("'" ++ type_name w
                                               ++ "' object is not subscriptable")%string))
          by (rewrite E; eexists; split;
              [reflexivity | simpl; intros H; first [reflexivity | discriminate H]])
    end;
    destruct R as (e & R & M);
    rewrite (stock_info_raises yf_Ticker symbol ticker info e T I R);
    (split; [reflexivity | intros H; rewrite (M H); reflexivity]).
Qed.

Lemma unsliceable_summary_is_error_witness :
  is_error (get_stock_info
              (Sample.serving (Sample.with_info Sample.apple_numbered_summary))
              "aapl") = true
  /\ (is_mapping (PInt 7) = false ->
      get_stock_info
        (Sample.serving (Sample.with_info Sample.apple_numbered_summary)) "aapl"
        = Plain ("Error: '" ++ type_name (PInt 7)
                 ++ "' object is not subscriptable")).
Proof.
  apply (unsliceable_summary_is_error
           (Sample.serving (Sample.with_info Sample.apple_numbered_summary))
           "aapl" (Sample.with_info Sample.apple_numbered_summary)
           Sample.apple_numbered_summary (PInt 7));
    reflexivity.
Defined.

Lemma price_is_current_when_truthy_witness :
  exists fields,
    get_stock_info (Sample.serving (Sample.with_info Sample.apple_priced)) "aapl"
      = JsonDumps (PDict fields)
    /\ lookup "price" fields = Some (PFloat (1895 # 10)%Q).
Proof.
  apply (price_is_current_when_truthy
           (Sample.serving (Sample.with_info Sample.apple_priced)) "aapl"
           (Sample.with_info Sample.apple_priced) Sample.apple_priced (PStr ""));
    reflexivity.
Defined.


(** [get_stock_info] has two outcomes only: a JSON object with the fourteen
    fields, or an error text.  It has no "not found" reply: a symbol the
    provider knows nothing about still yields the object, its fields null. *)
Theorem stock_info_outcomes (yf_Ticker : string -> result yf.Ticker)
  (symbol : string) :
  (exists fields,
     get_stock_info yf_Ticker symbol = JsonDumps (PDict fields)
     /\ map fst fields = stock_field_names)
  \/ is_error (get_stock_info yf_Ticker symbol) = true.
Proof.
  unfold get_stock_info, get_stock_info_body.
  destruct (yf_Ticker symbol) as [ticker | e]; [ | right; reflexivity].
  cbn [bind].
  destruct (yf.info ticker) as [info | e]; [ | right; reflexivity].
  cbn [bind].
  destruct (slice_to 500 (dict_get_default info "longBusinessSummary" (PStr "")))
    as [summary | e]; [ | right; reflexivity].
  left. eexists. split; reflexivity.
Qed.

(** ** One symbol at a time *)

(** The reply to a call depends on the provider only through the ticker of
    the call's own symbol: two providers that answer that symbol alike get
    the same reply, whatever they hold for other symbols. *)
Theorem reply_depends_on_own_symbol
  (yf_Ticker yf_Ticker' : string -> result yf.Ticker) (render : cell -> string)
  (c : call) :
  yf_Ticker (symbol_of c) = yf_Ticker' (symbol_of c) ->
  handle yf_Ticker render c = handle yf_Ticker' render c.
Proof.
  intros H.
  destruct c; simpl in H; simpl;
    [ unfold get_stock_info, get_stock_info_body
    | unfold get_historical_prices, get_historical_prices_body
    | unfold get_stock_news, get_stock_news_body
    | unfold get_financial_statement, get_financial_statement_body
    | unfold get_recommendations, get_recommendations_body ];
    rewrite H; reflexivity.
Qed.

Lemma reply_depends_on_own_symbol_witness :
  handle (Sample.serving (Sample.with_info Sample.apple)) Sample.render
    (StockInfo "aapl")
  = handle (fun symbol => if String.eqb symbol "aapl"
                          then Ok (Sample.with_info Sample.apple)
                          else Raise Sample.offline)
      Sample.render (StockInfo "aapl").
Proof.
  apply (reply_depends_on_own_symbol
           (Sample.serving (Sample.with_info Sample.apple))
           (fun symbol => if String.eqb symbol "aapl"
                          then Ok (Sample.with_info Sample.apple)
                          else Raise Sample.offline)
           Sample.render (StockInfo "aapl")).
  reflexivity.
Defined.

(** ** News *)

Lemma for_each_stops {A B : Type} (f : A -> result B) (good : list A) (bad : A)
  (rest : list A) (e : Exception) :
  (forall x, In x good -> exists y, f x = Ok y) ->
  f bad = Raise e ->
  for_each f (good ++ bad :: rest) = Raise e.
Proof.
  intros G F. induction good as [ | x good IH]; simpl.
  - rewrite F. reflexivity.
  - destruct (G x (or_introl eq_refl)) as [y ->]. simpl.
    rewrite IH; [reflexivity | ].
    intros z Hz. apply G. now right.
Qed.

Lemma for_each_ok {A B : Type} (f : A -> result B) (P : B -> Prop)
  (xs : list A) (ys : list B) :
  (forall x y, f x = Ok y -> P y) ->
  for_each f xs = Ok ys ->
  length ys = length xs /\ Forall P ys.
Proof.
  intros HP. revert ys. induction xs as [ | x rest IH]; intros ys; simpl.
  - intros H. injection H as <-. split; [reflexivity | constructor].
  - destruct (f x) as [y | e] eqn:Fx; simpl; [ | discriminate].
    destruct (for_each f rest) as [ys' | e]; simpl; [ | discriminate].
    intros H. injection H as <-.
    destruct (IH ys' eq_refl) as [L Q].
    split; [simpl; now rewrite L | constructor; [now apply (HP x) | exact Q]].
Qed.

(** Whatever [article] returns is an object with the three keys. *)
Lemma article_keys (item v : pyval) :
  article item = Ok v ->
  exists title publisher link,
    v = PDict [("title", title); ("publisher", publisher); ("link", link)].
Proof.
  unfold article. intros H.
  repeat match type of H with
         | bind ?m ?k = Ok _ =>
             let a := fresh "a" in
             let E := fresh "E" in
             destruct (bind_inv_ok m k _ H) as (a & E & H'); clear H;
             rename H' into H; clear E
         end.
  injection H as <-. eexists. eexists. eexists. reflexivity.
Qed.

(** An item whose [content] is present and is not a mapping - null, for
    one - makes [article] raise on the first [.get] applied to it. *)
Lemma article_content_not_mapping (d : dict) (v : pyval) :
  lookup "content" d = Some v ->
  is_mapping v = false ->
  article (PDict d)
    = Raise (AttributeError ("'" ++ type_name v ++ "' object has no attribute 'get'")).
Proof.
  intros L M. unfold article. simpl. unfold dict_get_default. rewrite L.
  cbn [bind].
  destruct v; try discriminate M; reflexivity.
Qed.

Lemma article_flat (d : dict) :
  lookup "content" d = None -> article (PDict d) = Ok (flat_digest d).
Proof.
  intros L. unfold article, flat_digest. simpl. unfold dict_get_default.
  rewrite L. reflexivity.
Qed.

Section NewsFurther.

Variable yf_Ticker : string -> result yf.Ticker.

(** When the provider has no news for the symbol - [None] or an empty
    list - the handler says so in a plain string that names the symbol as
    given, and this is not an error text. *)
Theorem stock_news_not_found (symbol : string) (ticker : yf.Ticker)
  (news : option (list pyval)) :
  yf_Ticker symbol = Ok ticker ->
  yf.news ticker = Ok news ->
  news = None \/ news = Some [] ->
  get_stock_news yf_Ticker symbol = Plain ("No news found for " ++ symbol)
  /\ is_error (get_stock_news yf_Ticker symbol) = false.
Proof.
  intros T N E.
  rewrite (stock_news_none yf_Ticker symbol ticker news T N E).
  split; reflexivity.
Qed.

(** The first item that is not well shaped decides the reply: the items
    before it being fine, a mapping whose [content] is present and not a
    mapping, at any of the first five places, turns the whole reply into the
    error text of the missing [get] method, and no article is returned. *)
Theorem stock_news_first_bad_item (symbol : string) (ticker : yf.Ticker)
  (good rest : list pyval) (d : dict) (v : pyval) :
  yf_Ticker symbol = Ok ticker ->
  yf.news ticker = Ok (Some (good ++ PDict d :: rest)) ->
  length good < 5 ->
  forallb well_shaped good = true ->
  lookup "content" d = Some v ->
  is_mapping v = false ->
  get_stock_news yf_Ticker symbol
    = Plain ("Error: '" ++ type_name v ++ "' object has no attribute 'get'").
Proof.
  intros T N L W C M.
  assert (E : good ++ PDict d :: rest <> []) by (destruct good; discriminate).
  unfold get_stock_news.
  rewrite (stock_news_of_list yf_Ticker symbol ticker _ T N E).
  rewrite firstn_app, (firstn_all2 good) by lia.
  destruct (5 - length good) as [ | k] eqn:K; [lia | ].
  cbn [firstn].
  rewrite (for_each_stops article good (PDict d) (firstn k rest)
             (AttributeError ("'" ++ type_name v
                              ++ "' object has no attribute 'get'"))).
  - reflexivity.
  - intros x Hx. exists (digest x). apply article_well_shaped.
    rewrite forallb_forall in W. now apply W.
  - now apply article_content_not_mapping.
Qed.

(** A feed in the flat shape - items that are mappings without a [content]
    entry - keeps its titles and nothing else: every article gets the
    publisher ["Unknown"] and the link [""], whatever [publisher] and [link]
    the items carry. *)
Theorem stock_news_flat_feed (symbol : string) (ticker : yf.Ticker)
  (feed : list dict) :
  yf_Ticker symbol = Ok ticker ->
  yf.news ticker = Ok (Some (map PDict feed)) ->
  feed <> [] ->
  (forall d, In d (firstn 5 feed) -> lookup "content" d = None) ->
  get_stock_news yf_Ticker symbol
    = JsonDumps (PList (map flat_digest (firstn 5 feed))).
Proof.
  intros T N E F.
  assert (E' : map PDict feed <> []) by (destruct feed; [contradiction | discriminate]).
  unfold get_stock_news.
  rewrite (stock_news_of_list yf_Ticker symbol ticker _ T N E').
  rewrite firstn_map.
  rewrite (for_each_pure article (fun item => match item with
                                              | PDict d => flat_digest d
                                              | _ => item
                                              end)).
  - cbn [bind guarded]. now rewrite map_map.
  - intros item Hin. apply in_map_iff in Hin as (d & <- & Hd).
    apply article_flat. now apply F.
Qed.

(** [get_stock_news] has three outcomes only: a JSON array of one to five
    objects, each with exactly the keys [title], [publisher] and [link]; the
    "no news" string; or an error text.  It never returns an empty array. *)
Theorem stock_news_outcomes (symbol : string) :
  (exists items,
     get_stock_news yf_Ticker symbol = JsonDumps (PList items)
     /\ 1 <= length items <= 5
     /\ Forall (fun item => exists title publisher link,
                  item = PDict [ ("title", title); ("publisher", publisher);
                                 ("link", link) ]) items)
  \/ get_stock_news yf_Ticker symbol = Plain ("No news found for " ++ symbol)
  \/ is_error (get_stock_news yf_Ticker symbol) = true.
Proof.
  unfold get_stock_news, get_stock_news_body.
  destruct (yf_Ticker symbol) as [ticker | e]; [ | right; right; reflexivity].
  cbn [bind].
  destruct (yf.news ticker) as [[news | ] | e];
    [ | right; left; reflexivity | right; right; reflexivity].
  cbn [bind].
  destruct news as [ | item rest]; [right; left; reflexivity | ].
  destruct (for_each article (firstn 5 (item :: rest))) as [articles | e] eqn:F;
    [ | right; right; reflexivity].
  left. exists articles.
  destruct (for_each_ok article _ _ articles article_keys F) as [L Q].
  split; [reflexivity | split; [ | exact Q]].
  rewrite L, length_firstn. simpl length. lia.
Qed.

End NewsFurther.

(** Only the first five items of the provider's list are looked at: two
    lists with the same first five items get the same reply, so an item past
    the fifth, however malformed, changes nothing. *)
Theorem stock_news_ignores_later_items
  (yf_Ticker yf_Ticker' : string -> result yf.Ticker) (symbol : string)
  (ticker ticker' : yf.Ticker) (news news' : list pyval) :
  yf_Ticker symbol = Ok ticker ->
  yf_Ticker' symbol = Ok ticker' ->
  yf.news ticker = Ok (Some news) ->
  yf.news ticker' = Ok (Some news') ->
  firstn 5 news = firstn 5 news' ->
  get_stock_news yf_Ticker symbol = get_stock_news yf_Ticker' symbol.
Proof.
  intros T T' N N' F.
  unfold get_stock_news, get_stock_news_body.
  rewrite T, T'. cbn [bind]. rewrite N, N'. cbn [bind].
  destruct news as [ | x l], news' as [ | x' l']; try discriminate F.
  - reflexivity.
  - now rewrite F.
Qed.

Lemma stock_news_not_found_witness :
  get_stock_news (Sample.serving Sample.bare) "ZZZZ"
    = Plain "No news found for ZZZZ"
  /\ is_error (get_stock_news (Sample.serving Sample.bare) "ZZZZ") = false.
Proof.
  apply (stock_news_not_found (Sample.serving Sample.bare) "ZZZZ" Sample.bare None).
  - reflexivity.
  - reflexivity.
  - left. reflexivity.
Defined.

Lemma stock_news_first_bad_item_witness :
  get_stock_news
    (Sample.serving
       (Sample.with_news
          ([Sample.modern_item] ++ PDict Sample.null_content_entries
                                :: [Sample.modern_item])))
    "AAPL"
  = Plain ("Error: '" ++ type_name PNone ++ "' object has no attribute 'get'").
Proof.
  apply (stock_news_first_bad_item
           (Sample.serving
              (Sample.with_news
                 ([Sample.modern_item] ++ PDict Sample.null_content_entries
                                       :: [Sample.modern_item])))
           "AAPL"
           (Sample.with_news
              ([Sample.modern_item] ++ PDict Sample.null_content_entries
                                    :: [Sample.modern_item]))
           [Sample.modern_item] [Sample.modern_item]
           Sample.null_content_entries PNone).
  - reflexivity.
  - reflexivity.
  - simpl. lia.
  - reflexivity.
  - reflexivity.
  - reflexivity.
Defined.

Lemma stock_news_flat_feed_witness :
  get_stock_news
    (Sample.serving (Sample.with_news (map PDict [Sample.flat_entries]))) "AAPL"
  = JsonDumps (PList (map flat_digest (firstn 5 [Sample.flat_entries]))).
Proof.
  apply (stock_news_flat_feed
           (Sample.serving (Sample.with_news (map PDict [Sample.flat_entries])))
           "AAPL" (Sample.with_news (map PDict [Sample.flat_entries]))
           [Sample.flat_entries]).
  - reflexivity.
  - reflexivity.
  - discriminate.
  - intros d [<- | []]. reflexivity.
Defined.

Lemma stock_news_ignores_later_items_witness :
  get_stock_news
    (Sample.serving
       (Sample.with_news
          [Sample.modern_item; Sample.modern_item; Sample.modern_item;
           Sample.modern_item; Sample.modern_item])) "AAPL"
  = get_stock_news
      (Sample.serving
         (Sample.with_news
            [Sample.modern_item; Sample.modern_item; Sample.modern_item;
             Sample.modern_item; Sample.modern_item; PNone])) "AAPL".
Proof.
  apply (stock_news_ignores_later_items _ _ "AAPL"
           (Sample.with_news
              [Sample.modern_item; Sample.modern_item; Sample.modern_item;
               Sample.modern_item; Sample.modern_item])
           (Sample.with_news
              [Sample.modern_item; Sample.modern_item; Sample.modern_item;
               Sample.modern_item; Sample.modern_item; PNone])
           [Sample.modern_item; Sample.modern_item; Sample.modern_item;
            Sample.modern_item; Sample.modern_item]
           [Sample.modern_item; Sample.modern_item; Sample.modern_item;
            Sample.modern_item; Sample.modern_item; PNone]);
    reflexivity.
Defined.

(** ** Tables: sizes *)

Lemma assign_length (put : cell -> list cell -> list cell)
  (rs : list (cell * list cell)) (values : pd.Series) :
  length (pd.assign put rs values) = length rs.
Proof.
  revert values. induction rs as [ | [i cells] rest IH]; intros values.
  - reflexivity.
  - destruct values as [ | v values']; simpl; [reflexivity | now rewrite IH].
Qed.

Lemma setitem_length (df : pd.DataFrame) (name : string) (values : pd.Series) :
  length (pd.rows (pd.setitem df name values)) = length (pd.rows df).
Proof.
  unfold pd.setitem.
  destruct (pd.position name (pd.columns df)); simpl; apply assign_length.
Qed.

Lemma records_length (df : pd.DataFrame) :
  length (pd.records df) = length (pd.rows df).
Proof. unfold pd.records. apply length_map. Qed.

Lemma not_empty_has_rows (df : pd.DataFrame) :
  pd.empty df = false -> 1 <= length (pd.rows df).
Proof.
  unfold pd.empty. destruct (pd.columns df); [discriminate | ].
  destruct (pd.rows df); [discriminate | ]. simpl. lia.
Qed.


(** The rows written after the [Date] column has been set: as many as the
    table has, up to [n], and at least one for a table with rows. *)
Lemma dated_tail_length (n : nat) (df : pd.DataFrame) (values : pd.Series) :
  length (pd.records (pd.tail n (pd.setitem df "Date" values)))
    = Nat.min n (length (pd.rows df)).
Proof.
  rewrite records_length. unfold pd.tail. cbn [pd.rows].
  now rewrite lastn_length, setitem_length.
Qed.

(** ** Historical prices *)

Section HistoricalPricesFurther.

Variable yf_Ticker : string -> result yf.Ticker.
Variable render : cell -> string.


(** [get_historical_prices] has three outcomes only: an array of one to
    twenty row objects, the "no data" string, or an error text.  It never
    returns an empty array and never more than twenty rows. *)
Theorem historical_prices_outcomes (symbol period interval : string) :
  (exists objects,
     get_historical_prices yf_Ticker render symbol period interval
       = ToJsonRecords objects
     /\ 1 <= length objects <= 20)
  \/ get_historical_prices yf_Ticker render symbol period interval
     = Plain ("No data found for " ++ symbol)
  \/ is_error (get_historical_prices yf_Ticker render symbol period interval)
     = true.
Proof.
  unfold get_historical_prices, get_historical_prices_body.
  destruct (yf_Ticker symbol) as [ticker | e]; [ | right; right; reflexivity].
  cbn [bind].
  destruct (yf.history ticker period interval) as [hist | e];
    [ | right; right; reflexivity].
  cbn [bind].
  destruct (pd.empty hist) eqn:E; [right; left; reflexivity | ].
  destruct (pd.has_column hist (pd.index_label hist)) eqn:F.
  - rewrite (reset_index_clash hist F). right. right. reflexivity.
  - rewrite (reset_index_ok hist F). cbn [bind].
    set (df := pd.mkDataFrame None (reset_labels hist)
                 (pd.number_from 0 (pd.rows hist))).
    destruct (pd.getitem df "Date") as [dates | e];
      [ | right; right; reflexivity].
    left. eexists. split; [reflexivity | ].
    rewrite dated_tail_length. subst df. cbn [pd.rows].
    rewrite number_from_length.
    pose proof (not_empty_has_rows hist E). lia.
Qed.

End HistoricalPricesFurther.


(** ** Recommendations *)



Section RecommendationsFurther.

Variable yf_Ticker : string -> result yf.Ticker.
Variable render : cell -> string.

(** When the provider has no recommendations - [None] or an empty table -
    the handler says so in a plain string that names the symbol as given;
    this is not an error text. *)
Theorem recommendations_not_found (symbol : string) (ticker : yf.Ticker)
  (recs : option pd.DataFrame) :
  yf_Ticker symbol = Ok ticker ->
  yf.recommendations ticker = Ok recs ->
  (recs = None \/ exists df, recs = Some df /\ pd.empty df = true) ->
  get_recommendations yf_Ticker render symbol
    = Plain ("No recommendations for " ++ symbol)
  /\ is_error (get_recommendations yf_Ticker render symbol) = false.
Proof.
  intros T R E.
  assert (G : get_recommendations yf_Ticker render symbol
              = Plain ("No recommendations for " ++ symbol)).
  { unfold get_recommendations, get_recommendations_body.
    rewrite T. cbn [bind]. rewrite R. cbn [bind].
    destruct E as [-> | (df & -> & E)]; [reflexivity | ].
    rewrite E. reflexivity. }
  rewrite G. split; reflexivity.
Qed.



(** [get_recommendations] has three outcomes only: an array of one to ten
    row objects, the "no recommendations" string, or an error text. *)
Theorem recommendations_outcomes (symbol : string) :
  (exists objects,
     get_recommendations yf_Ticker render symbol = ToJsonRecords objects
     /\ 1 <= length objects <= 10)
  \/ get_recommendations yf_Ticker render symbol
     = Plain ("No recommendations for " ++ symbol)
  \/ is_error (get_recommendations yf_Ticker render symbol) = true.
Proof.
  unfold get_recommendations, get_recommendations_body.
  destruct (yf_Ticker symbol) as [ticker | e]; [ | right; right; reflexivity].
  cbn [bind].
  destruct (yf.recommendations ticker) as [[recs | ] | e];
    [ | right; left; reflexivity | right; right; reflexivity].
  cbn [bind].
  destruct (pd.empty recs) eqn:E; [right; left; reflexivity | ].
  destruct (pd.has_column recs (pd.index_label recs)) eqn:F.
  - rewrite (reset_index_clash recs F). right. right. reflexivity.
  - rewrite (reset_index_ok recs F). cbn [bind].
    set (df := pd.mkDataFrame None (reset_labels recs)
                 (pd.number_from 0 (pd.rows recs))).
    assert (S : forall values,
               1 <= length (pd.records (pd.tail 10 (pd.setitem df "Date" values)))
                 <= 10).
    { intros values. rewrite dated_tail_length. subst df. cbn [pd.rows].
      rewrite number_from_length.
      pose proof (not_empty_has_rows recs E). lia. }
    destruct (pd.has_column df "Date").
    + destruct (pd.getitem df "Date") as [dates | e];
        [ | right; right; reflexivity].
      left. eexists. split; [reflexivity | apply S].
    + left. eexists. split; [reflexivity | apply S].
Qed.

End RecommendationsFurther.

Lemma recommendations_not_found_witness :
  get_recommendations (Sample.serving Sample.bare) Sample.render "ZZZZ"
    = Plain "No recommendations for ZZZZ"
  /\ is_error (get_recommendations (Sample.serving Sample.bare) Sample.render
                 "ZZZZ") = false.
Proof.
  apply (recommendations_not_found (Sample.serving Sample.bare) Sample.render
           "ZZZZ" Sample.bare None).
  - reflexivity.
  - reflexivity.
  - left. reflexivity.
Defined.



(** ** Financial statements *)

Section FinancialStatement.

Variable yf_Ticker : string -> result yf.Ticker.
Variable render : cell -> string.

Lemma financial_statement_of_table (symbol statement_type : string)
  (ticker : yf.Ticker) (data : pd.DataFrame) :
  yf_Ticker symbol = Ok ticker ->
  statement_table ticker statement_type = Some (Ok data) ->
  get_financial_statement yf_Ticker render symbol statement_type
    = if pd.empty data
      then Plain ("No " ++ statement_type ++ " data for " ++ symbol)
      else ToJsonIndex
             (pd.by_index
                (pd.head 10
                   (pd.set_columns data
                      (pd.astype_str render (pd.columns data))))).
Proof.
  intros T S.
  unfold get_financial_statement, get_financial_statement_body.
  rewrite T. cbn [bind]. unfold statement_table in S.
  destruct (String.eqb statement_type "income");
    [ | destruct (String.eqb statement_type "balance");
        [ | destruct (String.eqb statement_type "cashflow");
            [ | discriminate S]]];
    injection S as ->; cbn [bind]; destruct (pd.empty data); reflexivity.
Qed.


(** From an empty table of a known statement type the handler returns a
    plain string naming the type and the symbol as given; this is not an
    error text. *)
Theorem financial_statement_not_found (symbol statement_type : string)
  (ticker : yf.Ticker) (data : pd.DataFrame) :
  yf_Ticker symbol = Ok ticker ->
  statement_table ticker statement_type = Some (Ok data) ->
  pd.empty data = true ->
  get_financial_statement yf_Ticker render symbol statement_type
    = Plain ("No " ++ statement_type ++ " data for " ++ symbol)
  /\ is_error (get_financial_statement yf_Ticker render symbol statement_type)
     = false.
Proof.
  intros T S E.
  rewrite (financial_statement_of_table symbol statement_type ticker data T S).
  rewrite E. split; reflexivity.
Qed.

(** [get_financial_statement] has four outcomes only: an object of one to
    ten rows keyed by index value, the "no data" string, the usage string,
    or an error text. *)
Theorem financial_statement_outcomes (symbol statement_type : string) :
  (exists objects,
     get_financial_statement yf_Ticker render symbol statement_type
       = ToJsonIndex objects
     /\ 1 <= length objects <= 10)
  \/ get_financial_statement yf_Ticker render symbol statement_type
     = Plain ("No " ++ statement_type ++ " data for " ++ symbol)
  \/ get_financial_statement yf_Ticker render symbol statement_type
     = Plain invalid_statement_type
  \/ is_error (get_financial_statement yf_Ticker render symbol statement_type)
     = true.
Proof.
  destruct (yf_Ticker symbol) as [ticker | e] eqn:T.
  - destruct (statement_table ticker statement_type) as [[data | e] | ] eqn:S.
    + rewrite (financial_statement_of_table symbol statement_type ticker data T S).
      destruct (pd.empty data) eqn:E; [right; left; reflexivity | ].
      left. eexists. split; [reflexivity | ].
      unfold pd.by_index, pd.head, pd.set_columns. cbn [pd.rows].
      rewrite length_map, length_firstn.
      pose proof (not_empty_has_rows data E). lia.
    + right. right. right.
      unfold get_financial_statement, get_financial_statement_body.
      rewrite T. cbn [bind]. unfold statement_table in S.
      destruct (String.eqb statement_type "income");
        [ | destruct (String.eqb statement_type "balance");
            [ | destruct (String.eqb statement_type "cashflow");
                [ | discriminate S]]];
        injection S as ->; reflexivity.
    + right. right. left.
      unfold get_financial_statement, get_financial_statement_body.
      rewrite T. cbn [bind]. unfold statement_table in S.
      destruct (String.eqb statement_type "income"); [discriminate S | ].
      destruct (String.eqb statement_type "balance"); [discriminate S | ].
      destruct (String.eqb statement_type "cashflow"); [discriminate S | ].
      reflexivity.
  - right. right. right.
    unfold get_financial_statement, get_financial_statement_body.
    rewrite T. reflexivity.
Qed.

End FinancialStatement.


Lemma financial_statement_not_found_witness :
  get_financial_statement
    (Sample.serving
       (Sample.with_statements Sample.income Sample.no_frame Sample.no_frame))
    Sample.render "AAPL" "balance"
  = Plain "No balance data for AAPL"
  /\ is_error
       (get_financial_statement
          (Sample.serving
             (Sample.with_statements Sample.income Sample.no_frame Sample.no_frame))
          Sample.render "AAPL" "balance")
     = false.
Proof.
  apply (financial_statement_not_found
           (Sample.serving
              (Sample.with_statements Sample.income Sample.no_frame Sample.no_frame))
           Sample.render "AAPL" "balance"
           (Sample.with_statements Sample.income Sample.no_frame Sample.no_frame)
           Sample.no_frame);
    reflexivity.
Defined.

(** ** Telling errors from results *)






